(** * filehandlers: a file handle with a line cache

    A shallow embedding of [filehandlers/__init__.py].  The Python object
    and the file system it talks to are threaded explicitly through a state
    and exception monad; every method of the class [File] is a computation
    in that monad, written statement by statement after its source.

    Scope of the file-system model: a flat name space of regular text files
    in a writable directory.  [fs σ !! p = Some c] says that the path [p]
    exists and holds the characters [c]; every path is one that the
    platform can open or create (not empty, in a directory that exists,
    not itself a directory), and permissions are not modelled.  Text mode
    is the one of a POSIX platform: text is written as it is, and read
    with universal newlines, a carriage return, alone or before a line
    feed, coming back as one line feed.  The encoding of characters is
    outside the model. *)

From Stdlib Require Import Ascii String.
From stdpp Require Import base option list strings gmap fin_maps.

Local Open Scope string_scope.

(** ** Python exceptions and results *)

Inductive exn : Type :=
  | FileNotFoundError
  | FileExistsError
  | ValueError
  | UnsupportedOperation
  | AttributeError
  | JSONDecodeError
  | RecursionError.

Inductive result (A : Type) : Type :=
  | Return (a : A)
  | Raise (e : exn).
Arguments Return {A} a.
Arguments Raise {A} e.

(** ** class OpenModes(enum.Enum) *)

Module OpenModes.

Inductive t : Type :=
  | READ
  | READ_BINARY
  | WRITE
  | WRITE_BINARY
  | APPEND
  | CREATE
  | CREATE_AND_WRITE
  | TEXT
  | BINARY
  | UPDATING.

(** [CLEAR = WRITE]: in a Python enum a second name for a value already
    taken is an alias of the first member. *)
Definition CLEAR : t := WRITE.

Definition value (m : t) : string :=
  match m with
  | READ => "r"
  | READ_BINARY => "rb"
  | WRITE => "w"
  | WRITE_BINARY => "wb"
  | APPEND => "a"
  | CREATE => "x"
  | CREATE_AND_WRITE => "w+"
  | TEXT => "t"
  | BINARY => "b"
  | UPDATING => "+"
  end.

End OpenModes.

(** ** The object and the world around it *)

(** The instance attributes of a [File].  The class body only annotates
    [cache: List[str]]; no value is bound to it until [refresh] assigns
    one, hence the option. *)
Record File_obj : Type := mkFile {
  name : string;
  allow_non_existing_file : bool;
  cache : option (list string)
}.

Record state : Type := mkState {
  self : File_obj;
  fs : gmap string string
}.

Definition M (A : Type) : Type := state → result A * state.

#[export] Instance M_ret : MRet M := λ A a σ, (Return a, σ).

(** A raised exception skips the rest; what was done to the state stays. *)
#[export] Instance M_bind : MBind M := λ A B f m σ,
  match m σ with
  | (Return a, σ') => f a σ'
  | (Raise e, σ') => (Raise e, σ')
  end.

Definition raise {A : Type} (e : exn) : M A := λ σ, (Raise e, σ).

Definition get_fs : M (gmap string string) := λ σ, (Return (fs σ), σ).
Definition put_fs (d : gmap string string) : M () :=
  λ σ, (Return (), mkState (self σ) d).
Definition get_self : M File_obj := λ σ, (Return (self σ), σ).
Definition put_self (o : File_obj) : M () :=
  λ σ, (Return (), mkState o (fs σ)).

(** ** Text of a file as lines *)

Definition LF : ascii := "010"%char.

(** [str.replace("\n", "")]: every line feed is taken out. *)
Fixpoint replace_LF (s : string) : string :=
  match s with
  | EmptyString => EmptyString
  | String c s' =>
      if Ascii.eqb c LF then replace_LF s' else String c (replace_LF s')
  end.

Definition CR : ascii := "013"%char.

(** Universal newlines, the default of [open] in text mode: on reading, a
    carriage return followed by a line feed, and a carriage return alone,
    are each translated to one line feed. *)
Fixpoint universal_newlines (s : string) : string :=
  match s with
  | EmptyString => EmptyString
  | String c s' =>
      if Ascii.eqb c CR then
        String LF
          match s' with
          | String c' s'' =>
              if Ascii.eqb c' LF then universal_newlines s''
              else universal_newlines s'
          | EmptyString => EmptyString
          end
      else String c (universal_newlines s')
  end.

(** A text cut after each line feed: every piece but the last ends in its
    line feed, and the last has none when the text does not end in one. *)
Fixpoint split_lines (s : string) : list string :=
  match s with
  | EmptyString => []
  | String c s' =>
      if Ascii.eqb c LF then String c EmptyString :: split_lines s'
      else match split_lines s' with
           | [] => [String c EmptyString]
           | l :: ls => String c l :: ls
           end
  end.

(** The lines of a file that holds the characters [s], as [readlines()]
    returns them in text mode: the line endings are translated, then the
    text is cut after each line feed. *)
Definition splitlines_keepends (s : string) : list string :=
  split_lines (universal_newlines s).
Arguments splitlines_keepends : simpl never.

(** ** Built-ins: [os.path.exists], [os.remove], [open] and file objects *)

Module os.

Definition path_exists (p : string) : M bool :=
  d ← get_fs; mret (bool_decide (is_Some (d !! p))).

Definition remove (p : string) : M () :=
  d ← get_fs;
  match d !! p with
  | Some _ => put_fs (delete p d)
  | None => raise FileNotFoundError
  end.

End os.

(** What [open] returns.  No method of [File] keeps one across calls or
    reads one twice, so the model carries no read position. *)
Record TextIOWrapper : Type := mkWrapper {
  io_name : string;
  io_mode : string
}.

Module io.

Definition creat (file : string) : M () :=
  d ← get_fs;
  match d !! file with
  | Some _ => mret ()
  | None => put_fs (<[file := ""]> d)
  end.

(** [open(file, mode=mode)] for the modes of [OpenModes], on a path the
    platform can open or create (see the scope of the model): the errors
    of an empty path, of a missing directory or of a directory in the
    place of the file are not modelled. *)
Definition open (file mode : string) : M TextIOWrapper :=
  match mode with
  | "r" | "rb" =>
      d ← get_fs;
      match d !! file with
      | Some _ => mret (mkWrapper file mode)
      | None => raise FileNotFoundError
      end
  | "w" | "wb" | "w+" =>
      d ← get_fs; put_fs (<[file := ""]> d);; mret (mkWrapper file mode)
  | "a" =>
      creat file;; mret (mkWrapper file mode)
  | "x" =>
      d ← get_fs;
      match d !! file with
      | Some _ => raise FileExistsError
      | None => put_fs (<[file := ""]> d);; mret (mkWrapper file mode)
      end
  | _ => raise ValueError
  end.

Definition readable (fh : TextIOWrapper) : bool :=
  match io_mode fh with
  | "r" | "rb" | "w+" => true
  | _ => false
  end.

Definition writable (fh : TextIOWrapper) : bool :=
  match io_mode fh with
  | "w" | "wb" | "w+" | "a" | "x" => true
  | _ => false
  end.

Definition contents (fh : TextIOWrapper) : M string :=
  d ← get_fs; mret (default "" (d !! io_name fh)).

(** The modes with a [b] read the characters as they are. *)
Definition binary (fh : TextIOWrapper) : bool :=
  match io_mode fh with
  | "rb" | "wb" => true
  | _ => false
  end.

Definition read (fh : TextIOWrapper) : M string :=
  if readable fh then
    c ← contents fh;
    mret (if binary fh then c else universal_newlines c)
  else raise UnsupportedOperation.

Definition readlines (fh : TextIOWrapper) : M (list string) :=
  if readable fh then
    c ← contents fh;
    mret (if binary fh then split_lines c else splitlines_keepends c)
  else raise UnsupportedOperation.

(** The text goes after what the file holds: after the truncation of
    mode "w" that is the start of the file.  It is written as it is, the
    line separator of the platform being the line feed. *)
Definition write (fh : TextIOWrapper) (s : string) : M () :=
  if writable fh then
    c ← contents fh; d ← get_fs; put_fs (<[io_name fh := c +:+ s]> d)
  else raise UnsupportedOperation.

Definition close (fh : TextIOWrapper) : M () := mret ().

End io.

(** ** [json.loads] *)

(** The exceptions of [json.loads] on a string: the decode error, the
    [ValueError] of an integer literal with too many digits, and the
    [RecursionError] of a text nested too deep. *)
Inductive loads_error : Type :=
  | NotJSON
  | TooManyDigits
  | TooDeep.

Definition exn_of_loads_error (e : loads_error) : exn :=
  match e with
  | NotJSON => JSONDecodeError
  | TooManyDigits => ValueError
  | TooDeep => RecursionError
  end.

(** How the decoder ends on a text: with a value, or with an exception. *)
Inductive loads_result (V : Type) : Type :=
  | Decoded (v : V)
  | Rejected (e : loads_error).
Arguments Decoded {V} v.
Arguments Rejected {V} e.

(** ** class File *)

Module File.

(** The loop of [refresh]:
    [for index, element in enumerate(self.cache)].  The list iterator
    holds a position into the list it walks and stops when the position
    is no longer inside the list, whose length [pop] shrinks on the way;
    [index] counts the rounds and so equals the position.  [fuel] bounds
    the number of rounds. *)
Fixpoint refresh_loop (fuel : nat) (slim : bool) (cache : list string)
    (index : nat) : list string :=
  match fuel with
  | O => cache
  | S fuel' =>
      match cache !! index with
      | None => cache
      | Some element =>
          if slim && String.eqb element ""
          then refresh_loop fuel' slim (delete index cache) (S index)
          else refresh_loop fuel' slim
                 (<[index := replace_LF element]> cache) (S index)
      end
  end.

Definition __str__ : M string := o ← get_self; mret (name o).

Definition get_file_name : M string := __str__.

Definition wrap : M TextIOWrapper :=
  fn ← get_file_name; io.open fn "r".

Definition touch : M () :=
  fn ← get_file_name; fh ← io.open fn "a"; io.close fh.

Definition exists_ (touch_if_false : bool) : M bool :=
  o ← get_self;
  b ← os.path_exists (name o);
  if b : bool then
    (if touch_if_false then touch else mret ());;
    mret true
  else mret false.

Definition set_cache (c : list string) : M () :=
  o ← get_self;
  put_self (mkFile (name o) (allow_non_existing_file o) (Some c)).

Definition refresh (slim : bool) : M () :=
  e ← exists_ false;
  if negb e then mret ()
  else
    fn ← get_file_name;
    fh ← io.open fn "r";
    lines ← io.readlines fh;
    set_cache (refresh_loop (length lines) slim lines 0);;
    io.close fh.

Definition get_cache : M (list string) :=
  o ← get_self;
  match cache o with
  | Some c => mret c
  | None => raise AttributeError
  end.

Definition write_to_file (string : string) : M () :=
  fn ← get_file_name;
  e ← io.open fn (OpenModes.value OpenModes.WRITE);
  io.write e string;;
  io.close e.

Definition clear_file : M () :=
  fn ← get_file_name;
  fh ← io.open fn (OpenModes.value OpenModes.CLEAR);
  io.close fh.

Definition get_file_contents_singlestring : M string :=
  fn ← get_file_name;
  o ← io.open fn (OpenModes.value OpenModes.READ);
  data ← io.read o;
  io.close o;;
  mret data.

Definition delete : M bool :=
  e ← exists_ false;
  if e : bool then
    fn ← get_file_name; os.remove fn;; mret true
  else mret false.

Section Json.

(** [json.loads], the decoder of the Python library, and the type of the
    values it builds.  The decoder is outside this repository: what is
    proved of [load_from_json] holds for every decoder. *)
Context {V : Type}.
Variable loads : string → loads_result V.

Definition json_loads (s : string) : M V :=
  match loads s with
  | Decoded v => mret v
  | Rejected e => raise (exn_of_loads_error e)
  end.

Definition load_from_json : M V :=
  s ← get_file_contents_singlestring; json_loads s.

End Json.

(** [File(name, allow_non_existing_file)] run on the file system [d]:
    the two attributes are bound, then [self.refresh()]. *)
Definition __init__ (name : string) (allow_non_existing_file : bool)
    (d : gmap string string) : result () * state :=
  refresh false (mkState (mkFile name allow_non_existing_file None) d).

End File.

(** * Properties *)

Local Open Scope nat_scope.

(** ** What each method does to the state *)

Definition path (σ : state) : string := name (self σ).

Definition set_fs (σ : state) (d : gmap string string) : state :=
  mkState (self σ) d.

(** The state after a refresh that found the text [c] in the file. *)
Definition refreshed (slim : bool) (c : string) (σ : state) : state :=
  let lines := splitlines_keepends c in
  mkState
    (mkFile (name (self σ)) (allow_non_existing_file (self σ))
       (Some (File.refresh_loop (length lines) slim lines 0)))
    (fs σ).

(** The value a computation returns or raises, and the state it leaves. *)
Definition eval {A : Type} (m : M A) (σ : state) : result A := fst (m σ).
Definition exec {A : Type} (m : M A) (σ : state) : state := snd (m σ).

(** The texts of the examples. *)
Definition text_cool_things : string :=
  Eval cbv in "cool" +:+ String LF "things".
Definition text_blank_line : string :=
  Eval cbv in "a" +:+ String LF (String LF "b").

(** A handle on [test.txt], not yet refreshed, and two file systems. *)
Definition test_txt : File_obj := mkFile "test.txt" true None.
Definition no_files : gmap string string := ∅.
Definition one_file (c : string) : gmap string string :=
  {[ "test.txt" := c ]}.

(** ** Texts and lines *)

(** ["\n".join(lines)]. *)
Fixpoint join_LF (lines : list string) : string :=
  match lines with
  | [] => ""
  | [l] => l
  | l :: ls => l +:+ String LF (join_LF ls)
  end.

Fixpoint contains_CR (s : string) : bool :=
  match s with
  | EmptyString => false
  | String c s' => Ascii.eqb c CR || contains_CR s'
  end.

(** The two texts ["a\rb"] and ["a\nb"]. *)
Definition text_a_CR_b : string := String "a" (String CR "b").
Definition text_a_LF_b : string := String "a" (String LF "b").

Fixpoint contains_LF (s : string) : bool :=
  match s with
  | EmptyString => false
  | String c s' => Ascii.eqb c LF || contains_LF s'
  end.

Fixpoint count_LF (s : string) : nat :=
  match s with
  | EmptyString => 0
  | String c s' => (if Ascii.eqb c LF then 1 else 0) + count_LF s'
  end.

(** The text ends in a character that is not a line feed. *)
Fixpoint unterminated (s : string) : bool :=
  match s with
  | EmptyString => false
  | String c EmptyString => negb (Ascii.eqb c LF)
  | String _ s' => unterminated s'
  end.

Definition concat_lines (lines : list string) : string :=
  foldr String.append "" lines.

(** The handle keeps its name and its flag. *)
Definition same_handle (σ σ' : state) : Prop :=
  name (self σ') = name (self σ) ∧
  allow_non_existing_file (self σ') = allow_non_existing_file (self σ).

(** The state with another value of [allow_non_existing_file]. *)
Definition with_flag (b : bool) (σ : state) : state :=
  mkState (mkFile (name (self σ)) b (cache (self σ))) (fs σ).

(** A computation that does the same whatever the flag holds. *)
Definition flag_blind {A : Type} (m : M A) : Prop :=
  ∀ σ b, m (with_flag b σ) = (eval m σ, with_flag b (exec m σ)).

(** ** tests.py: class Tests(unittest.TestCase) *)

Module Tests.

(** How a test method ends: it returns, an assertion fails, or another
    exception escapes. *)
Inductive outcome (A : Type) : Type :=
  | Passed (a : A)
  | Failure
  | Error (e : exn).
Arguments Passed {A} a.
Arguments Failure {A}.
Arguments Error {A} e.

Definition T (A : Type) : Type := state → outcome A * state.

#[export] Instance T_ret : MRet T := λ A a σ, (Passed a, σ).

#[export] Instance T_bind : MBind T := λ A B f m σ,
  match m σ with
  | (Passed a, σ') => f a σ'
  | (Failure, σ') => (Failure, σ')
  | (Error e, σ') => (Error e, σ')
  end.

(** A call of a method of [self.f] from a test. *)
Definition call {A : Type} (m : M A) : T A := λ σ,
  match m σ with
  | (Return a, σ') => (Passed a, σ')
  | (Raise e, σ') => (Error e, σ')
  end.

Definition assertTrue (expr : bool) : T () := λ σ,
  (if expr then Passed () else Failure, σ).

Definition assertEqual {A : Type} `{EqDecision A} (first second : A) : T () :=
  assertTrue (bool_decide (first = second)).

(** [self.f = filehandlers.File("test.txt"); self.f.touch()], on the file
    system [d]. *)
Definition setUp (d : gmap string string) : result () * state :=
  match File.__init__ "test.txt" true d with
  | (Return _, σ) => File.touch σ
  | (Raise e, σ) => (Raise e, σ)
  end.

Definition tearDown : M bool := File.delete.

Definition test_file_naming : T () :=
  n ← call File.get_file_name; assertEqual n "test.txt".

Definition test_file_exists : T () :=
  e ← call (File.exists_ false); assertTrue e.

(** [textwrap.dedent] of the two indented lines is ["cool\nthings"]. *)
Definition test_writing_to_files : T () :=
  e ← call (File.exists_ false);
  assertTrue e;;
  b ← call File.wrap;
  r ← call (io.read b);
  assertEqual r "";;
  call (io.close b);;
  c ← call File.get_cache;
  assertEqual c [];;
  call (File.write_to_file text_cool_things);;
  call (File.refresh false);;
  c' ← call File.get_cache;
  assertEqual c' ["cool"; "things"];;
  s ← call File.get_file_contents_singlestring;
  assertEqual s text_cool_things.

(** One test of the case as [unittest] runs it on the file system [d]:
    [setUp], the test method, then [tearDown] whatever the method did.
    The result is how the test ended and the file system it leaves. *)
Definition run (test : T ()) (d : gmap string string)
    : outcome () * gmap string string :=
  match setUp d with
  | (Raise e, σ) => (Error e, fs σ)
  | (Return _, σ) =>
      let '(o, σ1) := test σ in
      match tearDown σ1 with
      | (Return _, σ2) => (o, fs σ2)
      | (Raise e, σ2) =>
          (match o with Passed _ => Error e | _ => o end, fs σ2)
      end
  end.

End Tests.

Ltac run_M :=
  repeat (cbn -[lookup insert delete] in *;
          unfold mbind, mret, M_bind, M_ret, raise, get_fs, put_fs,
            get_self, put_self in * ).

Ltac unfold_io :=
  unfold os.path_exists, os.remove, io.open, io.creat, io.read,
    io.readlines, io.write, io.close, io.contents, io.readable,
    io.writable, io.binary in *.

Ltac unfold_File :=
  unfold File.load_from_json, File.json_loads, File.delete, File.exists_,
    File.touch, File.wrap, File.set_cache, File.get_cache,
    File.write_to_file, File.clear_file,
    File.get_file_contents_singlestring, File.get_file_name,
    File.__str__ in *.

Lemma state_eta σ : mkState (self σ) (fs σ) = σ.
Proof. by destruct σ. Qed.

Lemma touch_run σ :
  File.touch σ =
  (Return (), match fs σ !! path σ with
              | Some _ => σ
              | None => set_fs σ (<[path σ := ""]> (fs σ))
              end).
Proof.
  unfold_File; unfold_io; unfold path, set_fs; run_M.
  by destruct (fs σ !! name (self σ)).
Qed.

Lemma exists_run t σ :
  File.exists_ t σ = (Return (bool_decide (is_Some (fs σ !! path σ))), σ).
Proof.
  unfold File.exists_, os.path_exists, path. run_M.
  destruct (fs σ !! name (self σ)) eqn:E; run_M; [|done].
  destruct t; run_M; [|done].
  rewrite touch_run. unfold path. by rewrite E.
Qed.

Lemma get_cache_run σ :
  File.get_cache σ =
  (match cache (self σ) with
   | Some c => Return c
   | None => Raise AttributeError
   end, σ).
Proof. unfold_File; run_M. by destruct (cache (self σ)). Qed.

Lemma write_to_file_run s σ :
  File.write_to_file s σ = (Return (), set_fs σ (<[path σ := s]> (fs σ))).
Proof.
  unfold_File; unfold_io; unfold path, set_fs; run_M.
  by rewrite lookup_insert_eq, insert_insert_eq.
Qed.

Lemma clear_file_run σ :
  File.clear_file σ = (Return (), set_fs σ (<[path σ := ""]> (fs σ))).
Proof. unfold_File; unfold_io; unfold path, set_fs; by run_M. Qed.

Lemma get_file_contents_singlestring_run σ :
  File.get_file_contents_singlestring σ =
  (match fs σ !! path σ with
   | Some c => Return (universal_newlines c)
   | None => Raise FileNotFoundError
   end, σ).
Proof.
  unfold_File; unfold_io; unfold path; run_M.
  destruct (fs σ !! name (self σ)) eqn:E; run_M; [|done]. by rewrite E.
Qed.

Lemma delete_run σ :
  File.delete σ =
  match fs σ !! path σ with
  | Some _ => (Return true, set_fs σ (delete (path σ) (fs σ)))
  | None => (Return false, σ)
  end.
Proof.
  unfold File.delete. run_M. rewrite exists_run.
  unfold_File; unfold_io; unfold path, set_fs; run_M.
  destruct (fs σ !! name (self σ)) eqn:E; run_M; [|done]. by rewrite E.
Qed.

Lemma load_from_json_run {V : Type} (loads : string → loads_result V) σ :
  File.load_from_json loads σ =
  (match fs σ !! path σ with
   | Some c => match loads (universal_newlines c) with
               | Decoded v => Return v
               | Rejected e => Raise (exn_of_loads_error e)
               end
   | None => Raise FileNotFoundError
   end, σ).
Proof.
  unfold File.load_from_json. run_M.
  rewrite get_file_contents_singlestring_run.
  destruct (fs σ !! path σ) as [c|]; [|done].
  unfold File.json_loads. by destruct (loads (universal_newlines c)).
Qed.

Lemma refresh_run slim σ :
  File.refresh slim σ =
  (Return (), match fs σ !! path σ with
              | Some c => refreshed slim c σ
              | None => σ
              end).
Proof.
  unfold File.refresh. run_M. rewrite exists_run.
  unfold_File; unfold_io; unfold path, refreshed; run_M.
  destruct (fs σ !! name (self σ)) eqn:E; run_M; [|done].
  rewrite E. run_M. by rewrite E.
Qed.

(** ** The loop of [refresh] *)

(** The loop ends by itself: once [fuel] covers the rest of the list,
    more of it changes nothing. *)
Lemma refresh_loop_fuel slim fuel k (cache : list string) index :
  length cache ≤ index + fuel →
  File.refresh_loop (fuel + k) slim cache index =
  File.refresh_loop fuel slim cache index.
Proof.
  revert cache index.
  induction fuel as [|fuel IH]; intros cache index Hlen.
  - destruct k as [|k]; [done|]. simpl.
    by rewrite (lookup_ge_None_2 cache index) by lia.
  - simpl. destruct (cache !! index) as [element|] eqn:E; [|done].
    destruct (slim && String.eqb element "").
    + apply IH. rewrite length_delete by eauto. lia.
    + apply IH. rewrite length_insert. lia.
Qed.

Corollary refresh_loop_total slim k (lines : list string) :
  File.refresh_loop (length lines + k) slim lines 0 =
  File.refresh_loop (length lines) slim lines 0.
Proof. apply refresh_loop_fuel. lia. Qed.

Example splitlines_cool_things :
  splitlines_keepends text_cool_things = [String.append "cool" (String LF ""); "things"].
Proof. reflexivity. Qed.

Example splitlines_blank_line :
  splitlines_keepends text_blank_line
  = [String "a" (String LF ""); String LF ""; "b"].
Proof. reflexivity. Qed.

Example splitlines_terminated :
  splitlines_keepends (String "a" (String LF "")) = [String "a" (String LF "")].
Proof. reflexivity. Qed.

Example universal_newlines_mixed :
  universal_newlines
    (String "a" (String CR (String LF (String "b" (String CR "c")))))
  = String "a" (String LF (String "b" (String LF "c"))).
Proof. reflexivity. Qed.

Example splitlines_carriage_return :
  splitlines_keepends text_a_CR_b = [String "a" (String LF ""); "b"].
Proof. reflexivity. Qed.

(** A list with empty strings in it, which [readlines] never returns:
    [pop] moves the next element under the position just visited, so the
    loop passes over it and leaves it with its line feed. *)
Example refresh_loop_pop_skips :
  File.refresh_loop 3 true [""; String "x" (String LF ""); ""] 0
  = [String "x" (String LF "")].
Proof. reflexivity. Qed.

(** Without [slim] the loop strips every line from [index] on. *)
Lemma refresh_loop_strip fuel (cache : list string) index :
  length cache ≤ index + fuel →
  File.refresh_loop fuel false cache index =
  (take index cache ++ (replace_LF <$> drop index cache))%list.
Proof.
  revert cache index.
  induction fuel as [|fuel IH]; intros cache index Hlen.
  - simpl. rewrite drop_ge, take_ge by lia. by rewrite app_nil_r.
  - simpl. destruct (cache !! index) as [element|] eqn:E.
    + rewrite IH by (rewrite length_insert; lia).
      assert (index < length cache) as Hlt by (by eapply lookup_lt_Some).
      rewrite (drop_S cache element index E), fmap_cons.
      rewrite (insert_take_drop cache index _ Hlt).
      assert (length (take index cache) = index) as Htake
        by (rewrite length_take; lia).
      rewrite take_app_ge by lia. rewrite drop_app_ge by lia.
      rewrite Htake. replace (S index - index) with 1 by lia.
      replace (take 1 _) with [replace_LF element] by done.
      simpl. rewrite drop_0. by rewrite <-app_assoc.
    + apply lookup_ge_None_1 in E.
      rewrite drop_ge, take_ge by lia. by rewrite app_nil_r.
Qed.

(** [slim] only ever acts on a line that is empty before it is stripped. *)
Lemma refresh_loop_slim fuel (cache : list string) index :
  (∀ j element, index ≤ j → cache !! j = Some element → element ≠ "") →
  File.refresh_loop fuel true cache index =
  File.refresh_loop fuel false cache index.
Proof.
  revert cache index.
  induction fuel as [|fuel IH]; intros cache index Hne; [done|].
  simpl. destruct (cache !! index) as [element|] eqn:E; [|done].
  destruct (String.eqb_spec element "") as [->|_].
  - by destruct (Hne index "").
  - apply IH. intros j e Hj Hlook.
    rewrite list_lookup_insert_ne in Hlook by lia. apply (Hne j); [lia|done].
Qed.

(** [readlines] returns no empty line: every line holds at least its own
    line feed or, for an unterminated last line, one other character. *)
Lemma split_lines_nonempty s line : line ∈ split_lines s → line ≠ "".
Proof.
  revert line. induction s as [|c s IH]; intros line; simpl.
  - by intros ?%elem_of_nil.
  - destruct (Ascii.eqb c LF).
    + intros [->|?]%elem_of_cons; [done|by apply IH].
    + destruct (split_lines s) as [|l ls].
      * by intros ->%list_elem_of_singleton.
      * intros [->|?]%elem_of_cons; [done|]. apply IH. by right.
Qed.

Lemma splitlines_keepends_nonempty s line :
  line ∈ splitlines_keepends s → line ≠ "".
Proof. apply split_lines_nonempty. Qed.

(** What [refresh] leaves in the cache, whatever [slim] is. *)
Lemma refresh_loop_splitlines slim c :
  let lines := splitlines_keepends c in
  File.refresh_loop (length lines) slim lines 0 = replace_LF <$> lines.
Proof.
  intros lines.
  transitivity (File.refresh_loop (length lines) false lines 0).
  - destruct slim; [|done]. apply refresh_loop_slim.
    intros j element _ Hj. apply (splitlines_keepends_nonempty c).
    apply list_elem_of_lookup. by exists j.
  - by rewrite refresh_loop_strip by lia.
Qed.

(** ** Universal newlines *)

Lemma universal_newlines_id s :
  contains_CR s = false → universal_newlines s = s.
Proof.
  induction s as [|c s IH]; [done|]. simpl.
  destruct (Ascii.eqb c CR); [done|]. simpl. intros H. by rewrite IH.
Qed.

Lemma universal_newlines_cons c s : universal_newlines (String c s) ≠ "".
Proof. simpl. by destruct (Ascii.eqb c CR). Qed.

(** ** The claims *)

Ltac run_File :=
  unfold eval, exec;
  repeat (cbn -[lookup insert delete File.refresh_loop] in *;
          unfold mbind, mret, M_bind, M_ret, path, set_fs in *;
          rewrite ?touch_run, ?exists_run, ?get_cache_run,
            ?write_to_file_run, ?clear_file_run,
            ?get_file_contents_singlestring_run, ?delete_run,
            ?load_from_json_run, ?refresh_run in * ).

(** C1 (the code departs from the claim).  On a path that is absent,
    [exists(touch_if_false=True)] returns [False] and leaves the file
    system and the object as they were: [touch] sits under the branch of
    the existing file, so no file is created and the next [exists()]
    returns [False] too. *)
Theorem exists_touch_if_false_absent σ :
  fs σ !! path σ = None →
  File.exists_ true σ = (Return false, σ) ∧
  eval (File.exists_ true;; File.exists_ false) σ = Return false.
Proof.
  intros Habsent. run_File. rewrite Habsent. by run_File.
Qed.

Lemma exists_touch_if_false_absent_witness :
  let σ := mkState test_txt no_files in
  fs σ !! path σ = None ∧
  File.exists_ true σ = (Return false, σ) ∧
  eval (File.exists_ true;; File.exists_ false) σ = Return false.
Proof.
  split; [reflexivity|].
  apply (exists_touch_if_false_absent (mkState test_txt no_files)).
  reflexivity.
Defined.

(** C2 (the code departs from the claim).  On the text of three lines
    ["a"], [""] and ["b"], [refresh(slim=True)] leaves the cache
    [["a"; ""; "b"]]: the line that is only a line feed is stripped to the
    empty string and stays in the cache. *)
Theorem refresh_slim_keeps_blank_line σ :
  fs σ !! path σ = Some text_blank_line →
  eval (File.refresh true;; File.get_cache) σ = Return ["a"; ""; "b"].
Proof. intros Hfile. run_File. rewrite Hfile. by run_File. Qed.

Lemma refresh_slim_keeps_blank_line_witness :
  let σ := mkState test_txt (one_file text_blank_line) in
  fs σ !! path σ = Some text_blank_line ∧
  eval (File.refresh true;; File.get_cache) σ = Return ["a"; ""; "b"].
Proof.
  split; [reflexivity|].
  apply (refresh_slim_keeps_blank_line
           (mkState test_txt (one_file text_blank_line))).
  reflexivity.
Defined.

(** C3 (the code departs from the claim).  For a handle constructed on a
    path that is absent, after [touch()] the call [exists()] returns
    [True], and [get_cache()] raises [AttributeError]: the refresh of the
    constructor returned early and bound no [cache]. *)
Theorem touch_after_init_absent nm allow (d : gmap string string) :
  d !! nm = None →
  let σ := exec File.touch (snd (File.__init__ nm allow d)) in
  eval (File.exists_ false) σ = Return true ∧
  eval File.get_cache σ = Raise AttributeError.
Proof.
  intros Habsent. unfold File.__init__. run_File.
  rewrite Habsent. run_File. rewrite !Habsent. simpl.
  rewrite lookup_insert_eq. by split.
Qed.

Lemma touch_after_init_absent_witness :
  no_files !! "test.txt" = None ∧
  let σ := exec File.touch (snd (File.__init__ "test.txt" true no_files)) in
  eval (File.exists_ false) σ = Return true ∧
  eval File.get_cache σ = Raise AttributeError.
Proof.
  split; [reflexivity|].
  apply (touch_after_init_absent "test.txt" true no_files).
  reflexivity.
Defined.

(** C4.  Writing ["cool\nthings"] with [write_to_file] and then calling
    [refresh()] makes [get_cache()] return [["cool"; "things"]], from any
    state of the handle and of the file system. *)
Theorem write_refresh_cool_things σ :
  eval (File.write_to_file text_cool_things;; File.refresh false;;
        File.get_cache) σ
  = Return ["cool"; "things"].
Proof.
  run_File. rewrite lookup_insert_eq. by run_File.
Qed.

(** C5 (as amended).  After [write_to_file(s)] the call
    [get_file_contents_singlestring()] returns [s] read with universal
    newlines: [s] itself, line feeds included, when [s] holds no carriage
    return.  The call reads the file system each time: it leaves the
    whole state, cache included, as it found it, and two states that agree
    on the path and on the file system give the same answer whatever their
    caches hold. *)
Theorem write_then_read_singlestring σ s :
  eval (File.write_to_file s;; File.get_file_contents_singlestring) σ
    = Return (universal_newlines s) ∧
  (contains_CR s = false →
   eval (File.write_to_file s;; File.get_file_contents_singlestring) σ
     = Return s) ∧
  exec File.get_file_contents_singlestring σ = σ ∧
  (∀ σ', path σ' = path σ → fs σ' = fs σ →
     eval File.get_file_contents_singlestring σ' =
     eval File.get_file_contents_singlestring σ).
Proof.
  split; [|split; [|split]].
  - run_File. by rewrite lookup_insert_eq.
  - intros Hs. run_File. rewrite lookup_insert_eq.
    by rewrite universal_newlines_id.
  - by run_File.
  - intros σ' Hpath Hfs. run_File. by rewrite Hpath, Hfs.
Qed.

Lemma write_then_read_singlestring_witness :
  let σ := mkState test_txt (one_file "old") in
  let σ' := mkState (mkFile "test.txt" false (Some ["stale"])) (one_file "old") in
  contains_CR text_cool_things = false ∧
  eval (File.write_to_file text_cool_things;;
        File.get_file_contents_singlestring) σ = Return text_cool_things ∧
  path σ' = path σ ∧ fs σ' = fs σ ∧
  eval File.get_file_contents_singlestring σ' =
  eval File.get_file_contents_singlestring σ.
Proof.
  pose proof (write_then_read_singlestring
                (mkState test_txt (one_file "old")) text_cool_things)
    as (_ & Hround & _ & Hsame).
  split; [reflexivity|].
  split; [exact (Hround eq_refl)|].
  split; [reflexivity|]. split; [reflexivity|].
  apply Hsame; reflexivity.
Defined.

(** C5 as it was stated fails on a text with a carriage return: written
    as ["a\rb"], the file reads back as ["a\nb"]. *)
Lemma write_then_read_carriage_return :
  eval (File.write_to_file text_a_CR_b;;
        File.get_file_contents_singlestring) (mkState test_txt no_files)
    = Return text_a_LF_b ∧
  eval (File.write_to_file text_a_CR_b;;
        File.get_file_contents_singlestring) (mkState test_txt no_files)
    ≠ Return text_a_CR_b.
Proof. split; [reflexivity|discriminate]. Qed.

(** C6.  [write_to_file] and [clear_file] return normally, leave the
    object (and so its cache) as it was, and change the file system at
    the path of the handle only, which then holds the text written, or
    the empty text.  No method other than [refresh] changes the cache. *)
Theorem write_and_clear_frame {V : Type} (loads : string → loads_result V) σ s :
  (eval (File.write_to_file s) σ = Return () ∧
   self (exec (File.write_to_file s) σ) = self σ ∧
   fs (exec (File.write_to_file s) σ) !! path σ = Some s ∧
   ∀ p, p ≠ path σ → fs (exec (File.write_to_file s) σ) !! p = fs σ !! p) ∧
  (eval File.clear_file σ = Return () ∧
   self (exec File.clear_file σ) = self σ ∧
   fs (exec File.clear_file σ) !! path σ = Some "" ∧
   ∀ p, p ≠ path σ → fs (exec File.clear_file σ) !! p = fs σ !! p) ∧
  (∀ t, cache (self (exec (File.exists_ t) σ)) = cache (self σ)) ∧
  cache (self (exec File.touch σ)) = cache (self σ) ∧
  cache (self (exec File.get_cache σ)) = cache (self σ) ∧
  cache (self (exec File.get_file_contents_singlestring σ))
    = cache (self σ) ∧
  cache (self (exec File.delete σ)) = cache (self σ) ∧
  cache (self (exec (File.load_from_json loads) σ)) = cache (self σ) ∧
  cache (self (exec File.wrap σ)) = cache (self σ) ∧
  cache (self (exec File.get_file_name σ)) = cache (self σ).
Proof.
  repeat split; run_File; try done; try apply lookup_insert_eq.
  - intros p Hp. by rewrite lookup_insert_ne.
  - intros p Hp. by rewrite lookup_insert_ne.
  - intros t. by run_File.
  - by destruct (fs σ !! name (self σ)).
  - by destruct (fs σ !! name (self σ)).
  - unfold_File; unfold_io; run_M. by destruct (fs σ !! name (self σ)).
Qed.

Lemma write_and_clear_frame_witness :
  let σ := mkState (mkFile "test.txt" true (Some ["stale"]))
             (<["other.txt" := "kept"]> (one_file "old")) in
  "other.txt" ≠ path σ ∧
  cache (self (exec (File.write_to_file text_cool_things) σ))
    = Some ["stale"] ∧
  fs (exec (File.write_to_file text_cool_things) σ) !! "other.txt"
    = Some "kept" ∧
  fs (exec File.clear_file σ) !! "other.txt" = Some "kept".
Proof.
  pose proof (write_and_clear_frame (λ _, Rejected (V:=()) NotJSON)
                (mkState (mkFile "test.txt" true (Some ["stale"]))
                   (<["other.txt" := "kept"]> (one_file "old")))
                text_cool_things)
    as ((_ & Hself & _ & Hw) & (_ & _ & _ & Hc) & _).
  split; [discriminate|].
  split; [by rewrite Hself|].
  split; [rewrite Hw by discriminate|rewrite Hc by discriminate];
    reflexivity.
Defined.

(** C7.  On a file that exists [delete()] removes it and returns [True],
    and [exists()] is [False] afterwards.  On a path that is absent it
    returns [False], raises nothing and leaves the state as it was.  So of
    two calls in a row the second returns [False], whatever the first
    found. *)
Theorem delete_twice σ :
  (is_Some (fs σ !! path σ) →
     eval File.delete σ = Return true ∧
     fs (exec File.delete σ) = delete (path σ) (fs σ) ∧
     self (exec File.delete σ) = self σ ∧
     eval (File.delete;; File.exists_ false) σ = Return false) ∧
  (fs σ !! path σ = None → File.delete σ = (Return false, σ)) ∧
  eval (File.delete;; File.delete) σ = Return false.
Proof.
  split; [|split].
  - intros [c Hc]. run_File. rewrite Hc. run_File.
    by rewrite lookup_delete_eq.
  - intros Habsent. run_File. by rewrite Habsent.
  - run_File. destruct (fs σ !! name (self σ)) eqn:E; run_File.
    + by rewrite lookup_delete_eq.
    + by rewrite E.
Qed.

Lemma delete_twice_witness :
  let σ := mkState test_txt (one_file "old") in
  let σ0 := mkState test_txt no_files in
  is_Some (fs σ !! path σ) ∧
  eval File.delete σ = Return true ∧
  eval (File.delete;; File.exists_ false) σ = Return false ∧
  fs σ0 !! path σ0 = None ∧
  File.delete σ0 = (Return false, σ0).
Proof.
  pose proof (delete_twice (mkState test_txt (one_file "old")))
    as (Hpresent & _ & _).
  pose proof (delete_twice (mkState test_txt no_files))
    as (_ & Habsent & _).
  assert (is_Some (one_file "old" !! "test.txt")) as Hsome
    by (eexists; reflexivity).
  destruct (Hpresent Hsome) as (Hret & _ & _ & Hgone).
  split; [exact Hsome|]. split; [exact Hret|]. split; [exact Hgone|].
  split; [reflexivity|]. apply Habsent. reflexivity.
Defined.

(** C9.  On a file that exists, [refresh(slim)] called twice in a row
    leaves the state, and so the cache that [get_cache()] returns, that
    one call leaves. *)
Theorem refresh_twice σ slim :
  is_Some (fs σ !! path σ) →
  ∃ lines,
    eval (File.refresh slim;; File.get_cache) σ = Return lines ∧
    eval (File.refresh slim;; File.refresh slim;; File.get_cache) σ
      = Return lines ∧
    exec (File.refresh slim;; File.refresh slim) σ
      = exec (File.refresh slim) σ.
Proof.
  intros [c Hc].
  exists (File.refresh_loop (length (splitlines_keepends c)) slim
            (splitlines_keepends c) 0).
  run_File. rewrite Hc. run_File. rewrite Hc. by run_File.
Qed.

Lemma refresh_twice_witness :
  let σ := mkState test_txt (one_file text_cool_things) in
  is_Some (fs σ !! path σ) ∧
  ∃ lines,
    eval (File.refresh false;; File.get_cache) σ = Return lines ∧
    eval (File.refresh false;; File.refresh false;; File.get_cache) σ
      = Return lines ∧
    exec (File.refresh false;; File.refresh false) σ
      = exec (File.refresh false) σ.
Proof.
  assert (is_Some (one_file text_cool_things !! "test.txt")) as Hsome
    by (eexists; reflexivity).
  split; [exact Hsome|].
  exact (refresh_twice (mkState test_txt (one_file text_cool_things))
           false Hsome).
Defined.

(** C10.  [readlines] yields no empty line, the test of [slim] looks at
    the line before it is stripped, and so on a file that exists
    [refresh(slim=True)] does what [refresh(slim=False)] does: both leave
    in the cache every line of the file, stripped of its line feed. *)
Theorem refresh_slim_same σ :
  (∀ c line, line ∈ splitlines_keepends c → line ≠ "") ∧
  (∀ c, fs σ !! path σ = Some c →
     File.refresh true σ = File.refresh false σ ∧
     ∀ slim, eval (File.refresh slim;; File.get_cache) σ
             = Return (replace_LF <$> splitlines_keepends c)).
Proof.
  split; [apply splitlines_keepends_nonempty|].
  intros c Hc. split.
  - run_File. rewrite Hc. unfold refreshed.
    by rewrite !refresh_loop_splitlines.
  - intros slim. run_File. rewrite Hc. run_File.
    by rewrite refresh_loop_splitlines.
Qed.

Lemma refresh_slim_same_witness :
  let σ := mkState test_txt (one_file text_blank_line) in
  fs σ !! path σ = Some text_blank_line ∧
  File.refresh true σ = File.refresh false σ.
Proof.
  split; [reflexivity|].
  apply (proj2 (refresh_slim_same
                  (mkState test_txt (one_file text_blank_line)))
           text_blank_line).
  reflexivity.
Defined.

(** ** Further properties of [File] *)

Lemma get_file_name_run σ : File.get_file_name σ = (Return (path σ), σ).
Proof. done. Qed.

Lemma wrap_run σ :
  File.wrap σ =
  (match fs σ !! path σ with
   | Some _ => Return (mkWrapper (path σ) "r")
   | None => Raise FileNotFoundError
   end, σ).
Proof.
  unfold_File; unfold_io; unfold path; run_M.
  by destruct (fs σ !! name (self σ)).
Qed.

Lemma init_run nm allow (d : gmap string string) :
  File.__init__ nm allow d =
  (Return (),
   mkState
     (mkFile nm allow
        ((λ c, replace_LF <$> splitlines_keepends c) <$> d !! nm)) d).
Proof.
  unfold File.__init__. rewrite refresh_run. unfold path, refreshed. simpl.
  destruct (d !! nm) as [c|]; [|done]. simpl.
  by rewrite refresh_loop_splitlines.
Qed.

Ltac run_all :=
  unfold eval, exec;
  repeat (cbn -[lookup insert delete File.refresh_loop] in *;
          unfold mbind, mret, M_bind, M_ret, path, set_fs in *;
          rewrite ?touch_run, ?exists_run, ?get_cache_run,
            ?write_to_file_run, ?clear_file_run,
            ?get_file_contents_singlestring_run, ?delete_run,
            ?load_from_json_run, ?refresh_run, ?wrap_run,
            ?get_file_name_run in * ).

Ltac case_file σ :=
  let E := fresh "Hfile" in
  destruct (fs σ !! name (self σ)) eqn:E; run_all; rewrite ?E; run_all.

(** X1.  [touch()] leaves the object alone.  Where the path can be
    opened, the path exists afterwards and holds the characters it held
    before, or none when it was absent; every other path is as it was.  A
    second [touch()] changes nothing more, and [exists()] then returns
    [True]. *)
Theorem touch_creates_or_keeps σ :
  self (exec File.touch σ) = self σ ∧
  fs (exec File.touch σ) !! path σ = Some (default "" (fs σ !! path σ)) ∧
  delete (path σ) (fs (exec File.touch σ)) = delete (path σ) (fs σ) ∧
  exec (File.touch;; File.touch) σ = exec File.touch σ ∧
  eval (File.touch;; File.exists_ false) σ = Return true.
Proof.
  run_all. case_file σ; repeat split; try done.
  - by rewrite lookup_insert_eq.
  - by rewrite delete_insert_eq.
  - by rewrite lookup_insert_eq.
  - by rewrite lookup_insert_eq.
Qed.

(** X2.  The constructor never changes the file system.  It binds the
    name and the flag it was given; it binds the cache exactly when the
    file exists, to the lines of the file as text mode reads them,
    stripped of their line feeds. *)
Theorem init_binds_cache_when_file_exists nm allow (d : gmap string string) :
  fs (snd (File.__init__ nm allow d)) = d ∧
  name (self (snd (File.__init__ nm allow d))) = nm ∧
  allow_non_existing_file (self (snd (File.__init__ nm allow d))) = allow ∧
  cache (self (snd (File.__init__ nm allow d))) =
    (λ c, replace_LF <$> splitlines_keepends c) <$> d !! nm.
Proof. by rewrite init_run. Qed.


(** X4.  A refresh after the file is gone keeps the cache: [delete()]
    followed by [refresh()] leaves the state that [delete()] leaves, and
    [get_cache()] then answers as it did before the file was deleted. *)
Theorem refresh_after_delete_keeps_cache σ slim :
  exec (File.delete;; File.refresh slim) σ = exec File.delete σ ∧
  eval (File.delete;; File.refresh slim;; File.get_cache) σ
    = eval File.get_cache σ.
Proof.
  run_all. case_file σ; by rewrite ?lookup_delete_eq.
Qed.

(** X5.  The methods that only look at the file leave the file system
    untouched, whether they return or raise. *)
Theorem readers_leave_file_system {V : Type} (loads : string → loads_result V) σ :
  (∀ t, fs (exec (File.exists_ t) σ) = fs σ) ∧
  (∀ slim, fs (exec (File.refresh slim) σ) = fs σ) ∧
  fs (exec File.get_cache σ) = fs σ ∧
  fs (exec File.get_file_name σ) = fs σ ∧
  fs (exec File.wrap σ) = fs σ ∧
  fs (exec File.get_file_contents_singlestring σ) = fs σ ∧
  fs (exec (File.load_from_json loads) σ) = fs σ.
Proof.
  repeat split; try intros ?; run_all; try done.
  by destruct (fs σ !! name (self σ)).
Qed.

(** X6.  No method changes the name or the flag of the handle. *)
Theorem methods_keep_name_and_flag {V : Type} (loads : string → loads_result V) σ :
  same_handle σ (exec File.touch σ) ∧
  (∀ t, same_handle σ (exec (File.exists_ t) σ)) ∧
  (∀ slim, same_handle σ (exec (File.refresh slim) σ)) ∧
  same_handle σ (exec File.get_cache σ) ∧
  (∀ s, same_handle σ (exec (File.write_to_file s) σ)) ∧
  same_handle σ (exec File.clear_file σ) ∧
  same_handle σ (exec File.get_file_contents_singlestring σ) ∧
  same_handle σ (exec File.delete σ) ∧
  same_handle σ (exec (File.load_from_json loads) σ) ∧
  same_handle σ (exec File.wrap σ) ∧
  same_handle σ (exec File.get_file_name σ).
Proof.
  unfold same_handle.
  repeat split; try intros ?; run_all; try done;
    by destruct (fs σ !! name (self σ)).
Qed.

(** X7.  No method reads [allow_non_existing_file]: with another value of
    the flag each method returns or raises the same and does the same to
    the cache and to the file system. *)
Theorem methods_ignore_the_flag {V : Type} (loads : string → loads_result V) :
  flag_blind File.touch ∧
  (∀ t, flag_blind (File.exists_ t)) ∧
  (∀ slim, flag_blind (File.refresh slim)) ∧
  flag_blind File.get_cache ∧
  (∀ s, flag_blind (File.write_to_file s)) ∧
  flag_blind File.clear_file ∧
  flag_blind File.get_file_contents_singlestring ∧
  flag_blind File.delete ∧
  flag_blind (File.load_from_json loads) ∧
  flag_blind File.wrap ∧
  flag_blind File.get_file_name.
Proof.
  unfold flag_blind, with_flag.
  repeat split; intros; run_all; try done;
    by destruct (fs _ !! _).
Qed.

(** X8.  [get_file_contents_singlestring], [wrap] and [load_from_json]
    raise [FileNotFoundError] exactly when the path is absent, and leave
    the state as it was; for [load_from_json] with any decoder, so an
    absent file is never reported as a decode error. *)
Theorem readers_raise_when_absent {V : Type} (loads : string → loads_result V) σ :
  (eval File.get_file_contents_singlestring σ = Raise FileNotFoundError ↔
   fs σ !! path σ = None) ∧
  (eval File.wrap σ = Raise FileNotFoundError ↔ fs σ !! path σ = None) ∧
  (eval (File.load_from_json loads) σ = Raise FileNotFoundError ↔
   fs σ !! path σ = None) ∧
  exec File.get_file_contents_singlestring σ = σ ∧
  exec File.wrap σ = σ ∧
  exec (File.load_from_json loads) σ = σ.
Proof.
  run_all. destruct (fs σ !! name (self σ)) as [c|]; simpl.
  - repeat split; try done;
      by destruct (loads (universal_newlines c)) as [v|[]].
  - by repeat split.
Qed.

Lemma readers_raise_when_absent_witness :
  let σ := mkState test_txt no_files in
  fs σ !! path σ = None ∧
  eval File.get_file_contents_singlestring σ = Raise FileNotFoundError ∧
  eval File.wrap σ = Raise FileNotFoundError ∧
  eval (File.load_from_json (λ _, Rejected (V:=()) NotJSON)) σ = Raise FileNotFoundError.
Proof.
  pose proof (readers_raise_when_absent (λ _, Rejected (V:=()) NotJSON)
                (mkState test_txt no_files))
    as (Hread & Hwrap & Hload & _).
  split; [reflexivity|].
  split; [apply Hread; reflexivity|].
  split; [apply Hwrap; reflexivity|apply Hload; reflexivity].
Defined.

(** X9.  [get_cache()] raises [AttributeError] exactly when no cache is
    bound.  A cache that is bound stays bound through every method, so
    from then on [get_cache()] always returns. *)
Theorem cache_stays_bound {V : Type} (loads : string → loads_result V) σ :
  (eval File.get_cache σ = Raise AttributeError ↔ cache (self σ) = None) ∧
  (is_Some (cache (self σ)) →
   is_Some (cache (self (exec File.touch σ))) ∧
   (∀ t, is_Some (cache (self (exec (File.exists_ t) σ)))) ∧
   (∀ slim, is_Some (cache (self (exec (File.refresh slim) σ)))) ∧
   (∀ s, is_Some (cache (self (exec (File.write_to_file s) σ)))) ∧
   is_Some (cache (self (exec File.clear_file σ))) ∧
   is_Some (cache (self (exec File.get_file_contents_singlestring σ))) ∧
   is_Some (cache (self (exec File.delete σ))) ∧
   is_Some (cache (self (exec (File.load_from_json loads) σ))) ∧
   is_Some (cache (self (exec File.wrap σ))) ∧
   ∃ c, eval File.get_cache σ = Return c).
Proof.
  split.
  - run_all. by destruct (cache (self σ)).
  - intros [c Hc].
    repeat split; try intros ?; run_all; rewrite ?Hc; eauto;
      destruct (fs σ !! name (self σ)); simpl; eauto.
Qed.

Lemma cache_stays_bound_witness :
  let σ := mkState (mkFile "test.txt" true (Some ["stale"])) no_files in
  is_Some (cache (self σ)) ∧
  is_Some (cache (self (exec File.delete σ))) ∧
  is_Some (cache (self (exec (File.refresh true) σ))).
Proof.
  assert (is_Some (Some ["stale"])) as Hsome by (eexists; reflexivity).
  pose proof (proj2 (cache_stays_bound (λ _, Rejected (V:=()) NotJSON)
                (mkState (mkFile "test.txt" true (Some ["stale"])) no_files))
                Hsome)
    as (_ & _ & Hrefresh & _ & _ & _ & Hdelete & _).
  split; [exact Hsome|]. split; [exact Hdelete|exact (Hrefresh true)].
Defined.

(** X10.  The last write wins: a write after a write, or after a clear,
    leaves the state that it leaves alone; a clear after a write leaves
    the state of the clear alone; and [clear_file()] does what
    [write_to_file("")] does. *)
Theorem last_write_wins σ s1 s2 :
  exec (File.write_to_file s1;; File.write_to_file s2) σ
    = exec (File.write_to_file s2) σ ∧
  exec (File.clear_file;; File.write_to_file s2) σ
    = exec (File.write_to_file s2) σ ∧
  exec (File.write_to_file s1;; File.clear_file) σ
    = exec File.clear_file σ ∧
  File.clear_file σ = File.write_to_file "" σ.
Proof. run_all. by rewrite !insert_insert_eq. Qed.

(** X11.  [write_to_file] and [clear_file] create the file: on a path
    that can be opened for writing, absent or not, [exists()] returns
    [True] after either of them, and after [clear_file()] the file reads
    back as the empty text. *)
Theorem write_and_clear_create_the_file σ s :
  eval (File.write_to_file s;; File.exists_ false) σ = Return true ∧
  eval (File.clear_file;; File.exists_ false) σ = Return true ∧
  eval (File.clear_file;; File.get_file_contents_singlestring) σ
    = Return "".
Proof. run_all. by rewrite !lookup_insert_eq. Qed.

(** X12.  The cache is empty after a refresh of an empty file: after
    [clear_file()], and after [touch()] on a path that was just deleted,
    [refresh()] makes [get_cache()] return the empty list, with either
    value of [slim]. *)
Theorem refresh_of_empty_file σ slim :
  eval (File.clear_file;; File.refresh slim;; File.get_cache) σ = Return [] ∧
  eval (File.delete;; File.touch;; File.refresh slim;; File.get_cache) σ
    = Return [].
Proof.
  split.
  - run_all. rewrite lookup_insert_eq. by run_all.
  - run_all. case_file σ; rewrite ?lookup_delete_eq; run_all;
      rewrite ?Hfile; run_all; rewrite ?lookup_insert_eq; by run_all.
Qed.

(** X13.  Creating the file and deleting it again restores the file
    system: on a path that is absent, [touch()] or [write_to_file(s)]
    followed by [delete()] leaves the file system as it was, and
    [delete()] returns [True]. *)
Theorem create_then_delete_restores σ s :
  fs σ !! path σ = None →
  fs (exec (File.touch;; File.delete) σ) = fs σ ∧
  fs (exec (File.write_to_file s;; File.delete) σ) = fs σ ∧
  eval (File.touch;; File.delete) σ = Return true ∧
  eval (File.write_to_file s;; File.delete) σ = Return true.
Proof.
  intros Habsent. run_all. rewrite !Habsent. run_all.
  rewrite !lookup_insert_eq. run_all.
  rewrite !delete_insert_eq, !delete_id by done. done.
Qed.

Lemma create_then_delete_restores_witness :
  let σ := mkState test_txt no_files in
  fs σ !! path σ = None ∧
  fs (exec (File.touch;; File.delete) σ) = fs σ ∧
  fs (exec (File.write_to_file text_cool_things;; File.delete) σ) = fs σ.
Proof.
  pose proof (create_then_delete_restores (mkState test_txt no_files)
                text_cool_things eq_refl) as (Htouch & Hwrite & _).
  split; [reflexivity|]. split; [exact Htouch|exact Hwrite].
Defined.

(** X14.  Reading the wrapper that [wrap()] returns is reading the file
    with [get_file_contents_singlestring()]: the same text or the same
    exception, and the same state. *)
Theorem wrap_read_is_singlestring σ :
  (b ← File.wrap; io.read b) σ = File.get_file_contents_singlestring σ.
Proof.
  run_all. unfold_io. case_file σ; by rewrite ?Hfile.
Qed.

(** ** Lines of a text and the cache *)

Lemma split_lines_nil s : split_lines s = [] → s = "".
Proof.
  destruct s as [|c s]; [done|]. simpl.
  destruct (Ascii.eqb c LF); [done|].
  by destruct (split_lines s).
Qed.

Lemma contains_LF_replace_LF s : contains_LF (replace_LF s) = false.
Proof.
  induction s as [|c s IH]; [done|]. simpl.
  destruct (Ascii.eqb c LF) eqn:E; [done|]. simpl. by rewrite E.
Qed.

Lemma replace_LF_id s : contains_LF s = false → replace_LF s = s.
Proof.
  induction s as [|c s IH]; [done|]. simpl.
  destruct (Ascii.eqb c LF); [done|]. simpl. intros H. by rewrite IH.
Qed.

Lemma split_lines_line l :
  contains_LF l = false → l ≠ "" → split_lines l = [l].
Proof.
  induction l as [|c l IH]; [done|]. simpl.
  destruct (Ascii.eqb c LF); [done|]. simpl. intros Hl _.
  destruct l as [|c' l']; [done|]. by rewrite IH.
Qed.

Lemma split_lines_app l rest :
  contains_LF l = false →
  split_lines (l +:+ String LF rest)
  = (l +:+ String LF "") :: split_lines rest.
Proof.
  induction l as [|c l IH]; simpl.
  - done.
  - destruct (Ascii.eqb c LF); [done|]. simpl. intros Hl. by rewrite IH.
Qed.

Lemma replace_LF_terminated l :
  contains_LF l = false → replace_LF (l +:+ String LF "") = l.
Proof.
  induction l as [|c l IH]; simpl.
  - done.
  - destruct (Ascii.eqb c LF); [done|]. simpl. intros H. by rewrite IH.
Qed.

Lemma strip_split_lines_join (lines : list string) :
  Forall (λ l, contains_LF l = false) lines →
  last lines ≠ Some "" →
  replace_LF <$> split_lines (join_LF lines) = lines.
Proof.
  induction lines as [|l ls IH]; [done|].
  intros [Hl Hls]%Forall_cons Hlast.
  destruct ls as [|l2 ls].
  - simpl in *. rewrite split_lines_line; [|done|congruence].
    simpl. by rewrite replace_LF_id.
  - change (join_LF (l :: l2 :: ls))
      with (l +:+ String LF (join_LF (l2 :: ls))).
    rewrite split_lines_app by done.
    rewrite fmap_cons, replace_LF_terminated by done.
    f_equal. by apply IH.
Qed.

Lemma length_split_lines c :
  length (split_lines c) = count_LF c + (if unterminated c then 1 else 0).
Proof.
  induction c as [|a s IH]; [done|].
  simpl split_lines. simpl count_LF.
  destruct (Ascii.eqb a LF) eqn:E.
  - simpl length. rewrite IH. destruct s; simpl; [by rewrite E|lia].
  - destruct (split_lines s) as [|l ls] eqn:Hs.
    + apply split_lines_nil in Hs as ->. simpl. by rewrite E.
    + simpl length in *. rewrite IH. by destruct s.
Qed.

Lemma concat_strip_split_lines c :
  concat_lines (replace_LF <$> split_lines c) = replace_LF c.
Proof.
  unfold concat_lines. induction c as [|a s IH]; [done|]. simpl.
  destruct (Ascii.eqb a LF) eqn:E.
  - simpl. rewrite E. exact IH.
  - destruct (split_lines s) as [|l ls] eqn:Hs.
    + apply split_lines_nil in Hs as ->. simpl. by rewrite E.
    + simpl in *. rewrite E.
      change (String a (replace_LF l) +:+ ?t)
        with (String a (replace_LF l +:+ t)).
      f_equal. exact IH.
Qed.

Lemma strip_split_lines_final_LF s :
  unterminated s = true →
  replace_LF <$> split_lines (s +:+ String LF "")
  = replace_LF <$> split_lines s.
Proof.
  induction s as [|a s IH]; [done|]. intros Hs.
  destruct s as [|a' s'].
  - simpl in *. by destruct (Ascii.eqb a LF).
  - assert (unterminated (String a' s') = true) as Hs' by done.
    specialize (IH Hs').
    change (String a (String a' s') +:+ String LF "")
      with (String a (String a' s' +:+ String LF "")).
    remember (String a' s') as t eqn:Ht.
    cbn [split_lines].
    destruct (Ascii.eqb a LF) eqn:E.
    + by rewrite !fmap_cons, IH.
    + destruct (split_lines (t +:+ String LF ""))
        as [|l1 ls1] eqn:H1;
      destruct (split_lines t) as [|l2 ls2] eqn:H2.
      all: try (apply split_lines_nil in H1; subst; done).
      all: try (apply split_lines_nil in H2; subst; done).
      rewrite !fmap_cons in *. simpl. rewrite E. congruence.
Qed.

(** *** Line endings read with universal newlines *)

Lemma universal_newlines_CR_LF t :
  universal_newlines (String CR (String LF t))
  = String LF (universal_newlines t).
Proof. done. Qed.

Lemma universal_newlines_CR_end :
  universal_newlines (String CR "") = String LF "".
Proof. done. Qed.

Lemma universal_newlines_CR_other b t :
  b ≠ LF →
  universal_newlines (String CR (String b t))
  = String LF (universal_newlines (String b t)).
Proof.
  intros Hb. cbn [universal_newlines]. simpl (Ascii.eqb CR CR).
  cbv iota. by destruct (Ascii.eqb_spec b LF).
Qed.

Lemma universal_newlines_other a t :
  a ≠ CR →
  universal_newlines (String a t) = String a (universal_newlines t).
Proof. intros Ha. simpl. by destruct (Ascii.eqb_spec a CR). Qed.

Lemma unterminated_cons a t :
  unterminated t = true → unterminated (String a t) = true.
Proof. by destruct t. Qed.

(** One line feed more at the end of a text that ends in another
    character: after a carriage return it is read as the same line
    ending, and otherwise as one line feed more. *)
Lemma universal_newlines_final_LF_cons s :
  let P t :=
    unterminated t = true →
    universal_newlines (t +:+ String LF "") = universal_newlines t ∨
    (universal_newlines (t +:+ String LF "")
       = universal_newlines t +:+ String LF "" ∧
     unterminated (universal_newlines t) = true) in
  P s ∧ ∀ a, P (String a s).
Proof.
  intros P. induction s as [|b s' [IH1 IH2]].
  - split; [done|]. intros a Ha. simpl in Ha.
    change (String a "" +:+ String LF "") with (String a (String LF "")).
    destruct (Ascii.eqb_spec a CR) as [->|Hne].
    + left. done.
    + right. rewrite !universal_newlines_other by done. split; [done|].
      done.
  - split; [apply IH2|]. intros a Ha.
    assert (unterminated (String b s') = true) as Hb by done.
    change (String a (String b s') +:+ String LF "")
      with (String a (String b (s' +:+ String LF ""))).
    destruct (Ascii.eqb_spec a CR) as [->|Hne].
    + destruct (Ascii.eqb_spec b LF) as [->|Hb'].
      * rewrite !universal_newlines_CR_LF.
        assert (unterminated s' = true) as Hs' by (by destruct s').
        destruct (IH1 Hs') as [->|[-> Hu]]; [by left|right].
        split; [done|]. by apply unterminated_cons.
      * rewrite !universal_newlines_CR_other by done.
        change (String b (s' +:+ String LF ""))
          with (String b s' +:+ String LF "").
        destruct (IH2 b Hb) as [->|[-> Hu]]; [by left|right].
        split; [done|]. by apply unterminated_cons.
    + rewrite !(universal_newlines_other a) by done.
      change (String b (s' +:+ String LF ""))
        with (String b s' +:+ String LF "").
      destruct (IH2 b Hb) as [->|[-> Hu]]; [by left|right].
      split; [done|]. by apply unterminated_cons.
Qed.

Lemma strip_splitlines_final_LF s :
  unterminated s = true →
  replace_LF <$> splitlines_keepends (s +:+ String LF "")
  = replace_LF <$> splitlines_keepends s.
Proof.
  intros Hs. unfold splitlines_keepends.
  destruct (proj1 (universal_newlines_final_LF_cons s) Hs) as [->|[-> Hu]];
    [done|].
  by apply strip_split_lines_final_LF.
Qed.

Lemma contains_CR_app s t :
  contains_CR (s +:+ t) = contains_CR s || contains_CR t.
Proof.
  induction s as [|c s IH]; [done|]. simpl. rewrite IH.
  by destruct (Ascii.eqb c CR).
Qed.

Lemma contains_CR_join_LF (lines : list string) :
  Forall (λ l, contains_CR l = false) lines →
  contains_CR (join_LF lines) = false.
Proof.
  induction lines as [|l ls IH]; [done|].
  intros [Hl Hls]%Forall_cons. destruct ls as [|l2 ls]; [done|].
  change (join_LF (l :: l2 :: ls))
    with (l +:+ String LF (join_LF (l2 :: ls))).
  rewrite contains_CR_app, Hl. simpl. by apply IH.
Qed.

(** X15.  Lines written are the lines cached: for lines without a line
    feed or a carriage return, the last of them not empty, writing them
    joined by line feeds and refreshing makes [get_cache()] return these
    lines, with either value of [slim]. *)
Theorem write_lines_then_refresh σ slim (lines : list string) :
  Forall (λ l, contains_LF l = false) lines →
  Forall (λ l, contains_CR l = false) lines →
  last lines ≠ Some "" →
  eval (File.write_to_file (join_LF lines);; File.refresh slim;;
        File.get_cache) σ
  = Return lines.
Proof.
  intros Hlines Hcr Hlast. run_all. rewrite lookup_insert_eq. run_all.
  rewrite refresh_loop_splitlines. unfold splitlines_keepends.
  rewrite universal_newlines_id by (by apply contains_CR_join_LF).
  by rewrite strip_split_lines_join.
Qed.

Lemma write_lines_then_refresh_witness :
  let lines := ["a"; ""; "b c"] in
  Forall (λ l, contains_LF l = false) lines ∧
  Forall (λ l, contains_CR l = false) lines ∧
  last lines ≠ Some "" ∧
  eval (File.write_to_file (join_LF lines);; File.refresh true;;
        File.get_cache) (mkState test_txt no_files)
  = Return lines.
Proof.
  assert (Forall (λ l, contains_LF l = false) ["a"; ""; "b c"]) as Hlines
    by (repeat constructor).
  assert (Forall (λ l, contains_CR l = false) ["a"; ""; "b c"]) as Hcr
    by (repeat constructor).
  assert (last ["a"; ""; "b c"] ≠ Some "") as Hlast by discriminate.
  split; [exact Hlines|]. split; [exact Hcr|]. split; [exact Hlast|].
  exact (write_lines_then_refresh (mkState test_txt no_files) true
           ["a"; ""; "b c"] Hlines Hcr Hlast).
Defined.

(** X16.  After a refresh of a file that exists, no line of the cache
    holds a line feed.  With the text of the file taken as text mode
    reads it, every line ending a line feed, the cache has one line for
    each line feed and one more when the text ends without one, and the
    lines of the cache put together are the text with its line feeds
    taken out. *)
Theorem refreshed_cache_shape σ slim c :
  fs σ !! path σ = Some c →
  ∃ lines,
    eval (File.refresh slim;; File.get_cache) σ = Return lines ∧
    Forall (λ l, contains_LF l = false) lines ∧
    length lines = count_LF (universal_newlines c)
                   + (if unterminated (universal_newlines c) then 1 else 0) ∧
    concat_lines lines = replace_LF (universal_newlines c).
Proof.
  intros Hc. exists (replace_LF <$> splitlines_keepends c).
  split; [|split; [|split]].
  - run_all. rewrite Hc. run_all. by rewrite refresh_loop_splitlines.
  - apply Forall_fmap, Forall_forall. intros l _. simpl.
    apply contains_LF_replace_LF.
  - unfold splitlines_keepends. by rewrite length_fmap, length_split_lines.
  - apply concat_strip_split_lines.
Qed.

Lemma refreshed_cache_shape_witness :
  let σ := mkState test_txt (one_file text_a_CR_b) in
  fs σ !! path σ = Some text_a_CR_b ∧
  ∃ lines,
    eval (File.refresh true;; File.get_cache) σ = Return lines ∧
    Forall (λ l, contains_LF l = false) lines ∧
    length lines = 2 ∧
    concat_lines lines = "ab".
Proof.
  split; [reflexivity|].
  exact (refreshed_cache_shape
           (mkState test_txt (one_file text_a_CR_b)) true
           text_a_CR_b eq_refl).
Defined.

(** X17.  The cache does not show whether the last line of the file is
    terminated: for a text that ends in a character other than a line
    feed, writing it with one more line feed at its end gives, after a
    refresh, the cache that writing it as it is gives. *)
Theorem final_line_feed_not_cached σ slim s :
  unterminated s = true →
  eval (File.write_to_file (s +:+ String LF "");; File.refresh slim;;
        File.get_cache) σ
  = eval (File.write_to_file s;; File.refresh slim;; File.get_cache) σ.
Proof.
  intros Hs. run_all. rewrite !lookup_insert_eq. run_all.
  by rewrite !refresh_loop_splitlines, strip_splitlines_final_LF.
Qed.

Lemma final_line_feed_not_cached_witness :
  let σ := mkState test_txt no_files in
  unterminated text_cool_things = true ∧
  eval (File.write_to_file (text_cool_things +:+ String LF "");;
        File.refresh false;; File.get_cache) σ
  = eval (File.write_to_file text_cool_things;; File.refresh false;;
          File.get_cache) σ.
Proof.
  split; [reflexivity|].
  exact (final_line_feed_not_cached (mkState test_txt no_files) false
           text_cool_things eq_refl).
Defined.

(** ** class OpenModes *)

(** X19.  The members of [OpenModes] have pairwise different values, so a
    mode string names one member; [CLEAR] is another name of [WRITE]. *)
Theorem open_modes_values_distinct m1 m2 :
  (OpenModes.value m1 = OpenModes.value m2 → m1 = m2) ∧
  OpenModes.CLEAR = OpenModes.WRITE ∧
  OpenModes.value OpenModes.CLEAR = OpenModes.value OpenModes.WRITE.
Proof. split; [|done]. by destruct m1, m2. Qed.

Lemma open_modes_values_distinct_witness :
  OpenModes.value OpenModes.CLEAR = OpenModes.value OpenModes.WRITE ∧
  OpenModes.CLEAR = OpenModes.WRITE.
Proof.
  split; [reflexivity|].
  exact (proj1 (open_modes_values_distinct OpenModes.CLEAR OpenModes.WRITE)
           eq_refl).
Defined.

(** ** The test case of tests.py *)

Ltac run_test :=
  unfold Tests.run, Tests.setUp, Tests.tearDown, Tests.test_file_naming,
    Tests.test_file_exists, Tests.test_writing_to_files, Tests.call,
    Tests.assertEqual, Tests.assertTrue;
  rewrite ?init_run;
  repeat (cbn -[lookup insert delete File.refresh_loop bool_decide] in *;
          unfold mbind, mret, Tests.T_bind, Tests.T_ret, path, set_fs in *;
          rewrite ?touch_run, ?exists_run, ?get_cache_run,
            ?write_to_file_run, ?clear_file_run,
            ?get_file_contents_singlestring_run, ?delete_run,
            ?refresh_run, ?wrap_run, ?get_file_name_run in * ).


Ltac run_test' :=
  unfold Tests.run, Tests.setUp, Tests.tearDown, Tests.test_file_naming,
    Tests.test_file_exists, Tests.test_writing_to_files, Tests.call,
    Tests.assertEqual, Tests.assertTrue, io.read, io.close, io.contents,
    io.readable;
  rewrite ?init_run;
  repeat (cbn -[lookup insert delete File.refresh_loop] in *;
          unfold mbind, mret, Tests.T_bind, Tests.T_ret, M_bind, M_ret,
            get_fs, path, set_fs, refreshed in *;
          rewrite ?touch_run, ?exists_run, ?get_cache_run,
            ?write_to_file_run, ?clear_file_run,
            ?get_file_contents_singlestring_run, ?delete_run,
            ?refresh_run, ?wrap_run, ?get_file_name_run,
            ?lookup_insert_eq in * ).

Ltac run_test_on E :=
  repeat progress
    (run_test'; rewrite ?E;
     rewrite ?bool_decide_eq_true_2 by reflexivity;
     rewrite ?bool_decide_eq_false_2 by done;
     rewrite ?delete_insert_eq).

Lemma test_writing_to_files_run (d : gmap string string) :
  fst (Tests.run Tests.test_writing_to_files d) =
  match d !! "test.txt" with
  | None => Tests.Error AttributeError
  | Some "" => Tests.Passed ()
  | Some _ => Tests.Failure
  end.
Proof.
  run_test'.
  destruct (d !! "test.txt") as [[|a c]|] eqn:E;
    [|destruct (Ascii.eqb a CR) eqn:Ea|];
    run_test_on E; rewrite ?Ea; run_test_on E; try done.
Qed.



